(** * swift_cloud_py/api.py: the client of the Swift Mobility cloud api

    A shallow embedding of [check_status_code] and of the two operations of
    the class [SwiftMobilityCloudApi], followed by the properties of the
    request/response contract and of the mapping of status codes to errors.

    - Python values that travel as JSON are values of [pyjson]; a [dict] is
      an association list in insertion order, as [str] and the JSON encoder
      see it.
    - A raised exception is a value of [exn]; code that may raise returns
      [exn + A] ([inl] is the raise).
    - The operations run in the monad [M]: they read the class attribute
      [_authentication_token] and call [requests.post], which is recorded in
      the list [posts] of the world.
    - The entity classes, the decorators, the builtin [str] and the remote
      service are not part of api.py: they are the fields of the class
      [Collaborators]. *)

From Stdlib Require Import ZArith String Floats.PrimFloat Floats.SpecFloat Floats.FloatOps.
From stdpp Require Import base option list gmap strings pretty.

#[local] Set Warnings "-register-all".
#[local] Open Scope Z_scope.

(** ** Python values *)

(** A Python number: an [int] or a [float] (binary64). *)
Inductive pynum :=
| PyInt (z : Z)
| PyFloat (f : float).

(** What [json()] returns and what [requests.post(json=...)] accepts. *)
Inductive pyjson :=
| JNone
| JBool (b : bool)
| JNum (n : pynum)
| JStr (s : string)
| JList (l : list pyjson)
| JDict (d : list (string * pyjson)).

(** The exceptions that api.py raises or lets through. [UnkownCloudException]
    is raised both as the bare class (no message) and with a message. *)
Inductive exn :=
| BadRequestException (msg : string)
| UnauthorizedException (msg : string)
| UnkownCloudException (msg : option string)
| TimeoutError
| AssertionError (msg : string)
| JSONDecodeError
| KeyError (key : string)
| TypeError
| ConnectionError
| OtherException (name : string).

(** [type(e).__name__] *)
Definition exn_name (e : exn) : string :=
  match e with
  | BadRequestException _ => "BadRequestException"
  | UnauthorizedException _ => "UnauthorizedException"
  | UnkownCloudException _ => "UnkownCloudException"
  | TimeoutError => "TimeoutError"
  | AssertionError _ => "AssertionError"
  | JSONDecodeError => "JSONDecodeError"
  | KeyError _ => "KeyError"
  | TypeError => "TypeError"
  | ConnectionError => "ConnectionError"
  | OtherException name => name
  end.

(** How a call ended, without the message: ["return"] or the name of the
    exception class. *)
Definition outcome_class {A} (o : exn + A) : string :=
  match o with
  | inl e => exn_name e
  | inr _ => "return"
  end.

(** [d[key]] on an association list: the entry with that key. *)
Fixpoint dict_get {V} (d : list (string * V)) (key : string) : option V :=
  match d with
  | [] => None
  | (k, v) :: rest => if String.eqb k key then Some v else dict_get rest key
  end.

(** [obj[key]] with a [str] key: a [dict] without the key raises [KeyError],
    anything that is not a [dict] raises [TypeError]. *)
Definition getitem (obj : pyjson) (key : string) : exn + pyjson :=
  match obj with
  | JDict d =>
      match dict_get d key with
      | Some v => inr v
      | None => inl (KeyError key)
      end
  | _ => inl TypeError
  end.

(** [z == f] for an [int] and a finite [float]: Python compares the exact
    values. *)
Definition int_eq_float (z : Z) (f : float) : bool :=
  match Prim2SF f with
  | S754_zero _ => z =? 0
  | S754_finite s m e =>
      let v := if s then Z.neg m else Z.pos m in
      if 0 <=? e then z =? v * 2 ^ e else z * 2 ^ (- e) =? v
  | _ => false
  end.

(** [a == b] on numbers. *)
Definition pynum_eqb (a b : pynum) : bool :=
  match a, b with
  | PyInt x, PyInt y => x =? y
  | PyFloat x, PyFloat y => PrimFloat.eqb x y
  | PyInt x, PyFloat y => int_eq_float x y
  | PyFloat x, PyInt y => int_eq_float y x
  end.

(** ** The objects of [requests] *)

(** A [requests.Response], through the two members api.py uses:
    [status_code], and the result of [json()], which is [None] when the body
    is not JSON (the call raises a [JSONDecodeError]). *)
Record Response := {
  status_code : Z;
  json : option pyjson
}.

Definition Response_json (r : Response) : exn + pyjson :=
  match json r with
  | Some j => inr j
  | None => inl JSONDecodeError
  end.

(** One call [requests.post(endpoint, json=json_dict, headers=headers)]. *)
Record Request := {
  endpoint : string;
  json_dict : pyjson;
  headers : gmap string string
}.

(** ** The world the operations run in *)

Record World := {
  _authentication_token : option string;
  posts : list Request
}.

Definition M (A : Type) : Type := World → (exn + A) * World.

#[global] Instance M_ret : MRet M := λ A x w, (inr x, w).

#[global] Instance M_bind : MBind M := λ A B f c w,
  match c w with
  | (inr x, w') => f x w'
  | (inl e, w') => (inl e, w')
  end.

(** Code that raises but touches nothing: [exn + A], with the same notation. *)
#[global] Instance result_ret : MRet (sum exn) := λ A x, inr x.

#[global] Instance result_bind : MBind (sum exn) := λ A B f c,
  match c with
  | inr x => f x
  | inl e => inl e
  end.

Definition raise {A} (e : exn) : M A := λ w, (inl e, w).

Definition lift {A} (r : exn + A) : M A := λ w, (r, w).

(** [try: body  except requests.exceptions.ConnectionError: handler] *)
Definition try_except_ConnectionError {A} (body handler : M A) : M A := λ w,
  match body w with
  | (inl ConnectionError, w') => handler w'
  | other => other
  end.

(** ** Entities and collaborators *)

Inductive ObjectiveEnum := min_delay | min_period | max_capacity.

Record SignalGroup {TrafficLight : Type} := {
  id : string;
  traffic_lights : list TrafficLight
}.
Arguments SignalGroup : clear implicits.

Record ArrivalRates := {
  id_to_arrival_rates : gmap string (list pynum)
}.

(** What api.py imports: the entity classes with their codecs, the two
    decorators, [ObjectiveEnum.value]; and what it calls: the builtin [str]
    and the service behind [requests.post], which answers a request (after
    the earlier ones) with a response or a raised transport exception. *)
Class Collaborators := {
  TrafficLight : Type;
  Intersection : Type;
  FixedTimeSchedule : Type;
  PhaseDiagram : Type;
  signalgroups : Intersection → list (SignalGroup TrafficLight);
  Intersection_to_json : Intersection → pyjson;
  ArrivalRates_to_json : ArrivalRates → pyjson;
  FixedTimeSchedule_to_json : FixedTimeSchedule → pyjson;
  FixedTimeSchedule_from_json : pyjson → exn + FixedTimeSchedule;
  PhaseDiagram_from_json : pyjson → exn + PhaseDiagram;
  ObjectiveEnum_value : ObjectiveEnum → pyjson;
  ensure_has_internet : ∀ A, M A → M A;
  authenticate : ∀ A, M A → M A;
  str : pyjson → string;
  cloud : list Request → Request → exn + Response
}.

(** ** api.py *)

Definition CLOUD_API_URL : string := "https://desktop-test-api.swiftmobility.eu".

Section Api.
Context {collaborators : Collaborators}.

Definition check_status_code (response : Response) : exn + unit :=
  if bool_decide (status_code response ∈ [400]) then
    body ← Response_json response;
    inl (BadRequestException (str body))
  else if bool_decide (status_code response ∈ [401]) then
    inl (UnauthorizedException "JWT validation failed: Missing or invalid credentials")
  else if bool_decide (status_code response ∈ [402]) then
    inl (UnauthorizedException "Insufficient credits (cpu seconds) left.")
  else if bool_decide (status_code response ∈ [403]) then
    inl (UnauthorizedException "Forbidden.")
  else if bool_decide (status_code response ∈ [426]) then
    body ← Response_json response;
    msg ← getitem body "msg";
    inl (UnauthorizedException
           ("The cloud api is still in the beta phase; this means it might change. "
            +:+ "Message from cloud: " +:+ str msg +:+ "."))
  else if bool_decide (status_code response ∈ [504]) then
    inl TimeoutError
  else if bool_decide (status_code response ≠ 200) then
    inl (UnkownCloudException None)
  else inr tt.

(** [assert cond, msg] *)
Definition assert_ (cond : bool) (msg : string) : exn + unit :=
  if cond then inr tt else inl (AssertionError msg).

(** The loop [for signalgroup in intersection.signalgroups] with its two
    assertions. *)
Fixpoint for_signalgroup_assert (todo : list (SignalGroup TrafficLight))
    (arrival_rates : ArrivalRates) : exn + unit :=
  match todo with
  | [] => inr tt
  | signalgroup :: rest =>
      assert_ (bool_decide (id signalgroup ∈ dom (id_to_arrival_rates arrival_rates)))
        ("arrival rate(s) must be specified for signalgroup " +:+ id signalgroup);;
      rates ← match id_to_arrival_rates arrival_rates !! id signalgroup with
              | Some rates => inr rates
              | None => inl (KeyError (id signalgroup))
              end;
      assert_ (bool_decide (length rates = length (traffic_lights signalgroup)))
        ("arrival rate(s) must be specified for all traffic lights of signalgroup "
         +:+ id signalgroup);;
      for_signalgroup_assert rest arrival_rates
  end.

(** [cls._authentication_token] *)
Definition read_authentication_token : M (option string) :=
  λ w, (inr (_authentication_token w), w).

(** ['Bearer {0:s}'.format(token)]: the format code [s] is refused by [None]. *)
Definition format_Bearer (token : option string) : exn + string :=
  match token with
  | Some t => inr ("Bearer " +:+ t)
  | None => inl TypeError
  end.

(** [requests.post]: the call is recorded and the service answers. *)
Definition requests_post (endpoint : string) (json : pyjson)
    (headers : gmap string string) : M Response := λ w,
  let request := {| endpoint := endpoint; json_dict := json; headers := headers |} in
  (cloud (posts w) request,
   {| _authentication_token := _authentication_token w;
      posts := posts w ++ [request] |}).

Definition connection_not_established : string :=
  "Connection with swift mobility cloud api could not be established".

(** The function under the decorators. An omitted keyword argument is
    [None] and takes the default of the signature. *)
Definition get_optimized_fts (intersection : Intersection) (arrival_rates : ArrivalRates)
    (min_period_duration max_period_duration : option pynum)
    (objective : option ObjectiveEnum)
  : M (FixedTimeSchedule * PhaseDiagram * pyjson) :=
  let min_period_duration := default (PyFloat 0.0) min_period_duration in
  let max_period_duration := default (PyInt 180) max_period_duration in
  let objective := default min_delay objective in
  lift (for_signalgroup_assert (signalgroups intersection) arrival_rates);;
  let request_id := "123-456" in
  let version := "0.7.0.alpha" in
  let endpoint := CLOUD_API_URL +:+ "/fts-optimization" in
  token ← read_authentication_token;
  bearer ← lift (format_Bearer token);
  let headers : gmap string string := {[ "authorization" := bearer ]} in
  r ← try_except_ConnectionError
        (let json_dict := JDict [
           ("intersection", Intersection_to_json intersection);
           ("arrival_rates", ArrivalRates_to_json arrival_rates);
           ("min_period_duration", JNum min_period_duration);
           ("max_period_duration", JNum max_period_duration);
           ("objective", ObjectiveEnum_value objective);
           ("version", JStr version);
           ("request_id", JStr request_id)] in
         requests_post endpoint json_dict headers)
        (raise (UnkownCloudException (Some connection_not_established)));
  lift (check_status_code r);;
  output ← lift (Response_json r);
  objective_value ← lift (getitem output "obj_value");
  fixed_time_schedule ← lift (getitem output "fixed_time_schedule"
                               ≫= FixedTimeSchedule_from_json);
  phase_diagram ← lift (getitem output "phase_diagram" ≫= PhaseDiagram_from_json);
  mret (fixed_time_schedule, phase_diagram, objective_value).

Definition get_phase_diagram (intersection : Intersection)
    (fixed_time_schedule : FixedTimeSchedule) : M PhaseDiagram :=
  let endpoint := CLOUD_API_URL +:+ "/phase-diagram-computation" in
  token ← read_authentication_token;
  bearer ← lift (format_Bearer token);
  let headers : gmap string string := {[ "authorization" := bearer ]} in
  r ← try_except_ConnectionError
        (greenyellow_intervals ←
           lift (getitem (FixedTimeSchedule_to_json fixed_time_schedule)
                   "greenyellow_intervals");
         period ← lift (getitem (FixedTimeSchedule_to_json fixed_time_schedule) "period");
         let json_dict := JDict [
           ("intersection", Intersection_to_json intersection);
           ("greenyellow_intervals", greenyellow_intervals);
           ("period", period)] in
         requests_post endpoint json_dict headers)
        (raise (UnkownCloudException (Some connection_not_established)));
  lift (check_status_code r);;
  output ← lift (Response_json r);
  phase_diagram ← lift (getitem output "phase_diagram" ≫= PhaseDiagram_from_json);
  mret phase_diagram.

(** The class methods as callers see them:
    [@ensure_has_internet @authenticate def ...]. *)
Definition SwiftMobilityCloudApi_get_optimized_fts (intersection : Intersection)
    (arrival_rates : ArrivalRates) (min_period_duration max_period_duration : option pynum)
    (objective : option ObjectiveEnum) :=
  ensure_has_internet _
    (authenticate _
       (get_optimized_fts intersection arrival_rates min_period_duration
          max_period_duration objective)).

Definition SwiftMobilityCloudApi_get_phase_diagram (intersection : Intersection)
    (fixed_time_schedule : FixedTimeSchedule) :=
  ensure_has_internet _
    (authenticate _ (get_phase_diagram intersection fixed_time_schedule)).

End Api.

(** ** Vocabulary of the contract *)

Section Contract.
Context {collaborators : Collaborators}.

(** The precondition of [get_optimized_fts]: every signal group has an entry
    in the arrival rates, as long as its list of traffic lights. *)
Definition has_arrival_rates (arrival_rates : ArrivalRates)
    (signalgroup : SignalGroup TrafficLight) : Prop :=
  ∃ rates, id_to_arrival_rates arrival_rates !! id signalgroup = Some rates
           ∧ length rates = length (traffic_lights signalgroup).

(** Its failure: the entry is absent, or has another length. *)
Definition lacks_arrival_rates (arrival_rates : ArrivalRates)
    (signalgroup : SignalGroup TrafficLight) : Prop :=
  id_to_arrival_rates arrival_rates !! id signalgroup = None
  ∨ ∃ rates, id_to_arrival_rates arrival_rates !! id signalgroup = Some rates
             ∧ length rates ≠ length (traffic_lights signalgroup).

(** The request that [get_optimized_fts] posts when the stored token is [token]. *)
Definition fts_optimization_request (intersection : Intersection)
    (arrival_rates : ArrivalRates) (min_period_duration max_period_duration : pynum)
    (objective : ObjectiveEnum) (token : string) : Request :=
  {| endpoint := CLOUD_API_URL +:+ "/fts-optimization";
     json_dict := JDict [
       ("intersection", Intersection_to_json intersection);
       ("arrival_rates", ArrivalRates_to_json arrival_rates);
       ("min_period_duration", JNum min_period_duration);
       ("max_period_duration", JNum max_period_duration);
       ("objective", ObjectiveEnum_value objective);
       ("version", JStr "0.7.0.alpha");
       ("request_id", JStr "123-456")];
     headers := {[ "authorization" := "Bearer " +:+ token ]} |}.

(** The request that [get_phase_diagram] posts. *)
Definition phase_diagram_request (intersection : Intersection)
    (greenyellow_intervals period : pyjson) (token : string) : Request :=
  {| endpoint := CLOUD_API_URL +:+ "/phase-diagram-computation";
     json_dict := JDict [
       ("intersection", Intersection_to_json intersection);
       ("greenyellow_intervals", greenyellow_intervals);
       ("period", period)];
     headers := {[ "authorization" := "Bearer " +:+ token ]} |}.

(** The world after one more call of [requests.post]. *)
Definition posted (w : World) (request : Request) : World :=
  {| _authentication_token := _authentication_token w;
     posts := posts w ++ [request] |}.

(** The names of the fields of a JSON object. *)
Definition fields (j : pyjson) : list string :=
  match j with
  | JDict d => d.*1
  | _ => []
  end.

(** A computation that leaves the stored token as it found it. *)
Definition keeps_token {A} (c : M A) : Prop :=
  ∀ w, _authentication_token (c w).2 = _authentication_token w.

End Contract.

(** ** The two halves of an operation after the post *)

Section Answers.
Context {collaborators : Collaborators}.

(** The lines of [get_optimized_fts] under [# parse output]. *)
Definition parse_fts_output (r : Response)
  : exn + (FixedTimeSchedule * PhaseDiagram * pyjson) :=
  output ← Response_json r;
  objective_value ← getitem output "obj_value";
  fixed_time_schedule ← getitem output "fixed_time_schedule" ≫= FixedTimeSchedule_from_json;
  phase_diagram ← getitem output "phase_diagram" ≫= PhaseDiagram_from_json;
  mret (fixed_time_schedule, phase_diagram, objective_value).

(** The lines of [get_phase_diagram] under [# check for errors]. *)
Definition parse_phase_diagram_output (r : Response) : exn + PhaseDiagram :=
  output ← Response_json r;
  getitem output "phase_diagram" ≫= PhaseDiagram_from_json.

(** What an operation makes of the outcome of [requests.post]: the except
    clause, then [check_status_code], then the parsing. *)
Definition after_post {A} (parse : Response → exn + A) (answer : exn + Response)
  : exn + A :=
  match answer with
  | inl ConnectionError => inl (UnkownCloudException (Some connection_not_established))
  | inl e => inl e
  | inr r => check_status_code r;; parse r
  end.

End Answers.

(** ** A small deployment, for the examples

    The scenario of the specification: two signal groups [A] (one traffic light)
    and [B] (two traffic lights), arrival rates [{A: [300], B: [150, 200]}],
    a token already acquired, and a service given as a parameter. *)

Record ExampleSchedule := {
  greenyellow_intervals : pyjson;
  period : pyjson
}.

Definition example_schedule_to_json (s : ExampleSchedule) : pyjson :=
  JDict [("greenyellow_intervals", greenyellow_intervals s); ("period", period s)].

Definition example_schedule_from_json (j : pyjson) : exn + ExampleSchedule :=
  g ← getitem j "greenyellow_intervals";
  p ← getitem j "period";
  mret {| greenyellow_intervals := g; period := p |}.

(** A rendering that agrees with [str] on [None], the booleans, the
    integers, the strings and the empty containers; the examples use no
    other value. *)
Definition example_str (j : pyjson) : string :=
  match j with
  | JNone => "None"
  | JBool true => "True"
  | JBool false => "False"
  | JNum (PyInt z) => pretty z
  | JStr s => s
  | JList [] => "[]"
  | JDict [] => "{}"
  | _ => "..."
  end.

Definition example_objective_value (o : ObjectiveEnum) : pyjson :=
  match o with
  | min_delay => JStr "min_delay"
  | min_period => JStr "min_period"
  | max_capacity => JStr "max_capacity"
  end.

Definition example_rates_to_json (a : ArrivalRates) : pyjson :=
  JDict (map (λ kv, (kv.1, JList (JNum <$> kv.2))) (map_to_list (id_to_arrival_rates a))).

Definition example_intersection_to_json (i : list (SignalGroup unit)) : pyjson :=
  JDict [("signalgroups", JList ((λ sg, JStr (id sg)) <$> i))].

(** Decorators that add nothing but a stored token. *)
Definition example_authenticate (A : Type) (body : M A) : M A := λ w,
  body {| _authentication_token := Some "token"; posts := posts w |}.

Definition example (server : list Request → Request → exn + Response) : Collaborators := {|
  TrafficLight := unit;
  Intersection := list (SignalGroup unit);
  FixedTimeSchedule := ExampleSchedule;
  PhaseDiagram := pyjson;
  signalgroups := λ i, i;
  Intersection_to_json := example_intersection_to_json;
  ArrivalRates_to_json := example_rates_to_json;
  FixedTimeSchedule_to_json := example_schedule_to_json;
  FixedTimeSchedule_from_json := example_schedule_from_json;
  PhaseDiagram_from_json := inr;
  ObjectiveEnum_value := example_objective_value;
  ensure_has_internet := λ A body, body;
  authenticate := example_authenticate;
  str := example_str;
  cloud := server
|}.

Definition example_intersection : list (SignalGroup unit) :=
  [ {| id := "A"; traffic_lights := [()] |};
    {| id := "B"; traffic_lights := [(); ()] |} ].

Definition example_arrival_rates : ArrivalRates :=
  {| id_to_arrival_rates :=
       <["A" := [PyInt 300]]> (<["B" := [PyInt 150; PyInt 200]]> ∅) |}.

(** The same rates without the entry of [B]. *)
Definition example_rates_without_B : ArrivalRates :=
  {| id_to_arrival_rates := <["A" := [PyInt 300]]> ∅ |}.

(** The same rates with one rate only for the two traffic lights of [B]. *)
Definition example_rates_short_B : ArrivalRates :=
  {| id_to_arrival_rates := <["A" := [PyInt 300]]> (<["B" := [PyInt 150]]> ∅) |}.

Definition example_schedule : ExampleSchedule :=
  {| greenyellow_intervals := JDict [("A", JList []); ("B", JList [])];
     period := JNum (PyInt 60) |}.

Definition example_phase_diagram : pyjson := JList [JList [JStr "A"]; JList [JStr "B"]].

Definition example_output : pyjson :=
  JDict [("fixed_time_schedule", example_schedule_to_json example_schedule);
         ("phase_diagram", example_phase_diagram);
         ("obj_value", JNum (PyFloat 12.5))].

(** A service that answers every request with the same response. *)
Definition answers (r : Response) : list Request → Request → exn + Response :=
  λ _ _, inr r.

(** A service that cannot be reached. *)
Definition unreachable : list Request → Request → exn + Response :=
  λ _ _, inl ConnectionError.

Definition ok_response : Response :=
  {| status_code := 200; json := Some example_output |}.

Definition payment_required : Response :=
  {| status_code := 402; json := None |}.

Definition upgrade_required : Response :=
  {| status_code := 426; json := Some (JDict [("msg", JStr "upgrade the client")]) |}.


(** The rates of the scenario with an entry for a group [C] that the
    intersection does not have. *)
Definition example_rates_with_C : ArrivalRates :=
  {| id_to_arrival_rates :=
       <["C" := [PyInt 10]]> (id_to_arrival_rates example_arrival_rates) |}.

(** A 200 answer without the objective value. *)
Definition output_without_obj_value : Response :=
  {| status_code := 200;
     json := Some (JDict [("fixed_time_schedule", example_schedule_to_json example_schedule);
                          ("phase_diagram", example_phase_diagram)]) |}.

(** The deployment with schedules kept as the JSON they came in, so that a
    schedule can lack a field. *)
Definition example_loose (server : list Request → Request → exn + Response)
  : Collaborators := {|
  TrafficLight := unit;
  Intersection := list (SignalGroup unit);
  FixedTimeSchedule := pyjson;
  PhaseDiagram := pyjson;
  signalgroups := λ i, i;
  Intersection_to_json := example_intersection_to_json;
  ArrivalRates_to_json := example_rates_to_json;
  FixedTimeSchedule_to_json := λ j, j;
  FixedTimeSchedule_from_json := inr;
  PhaseDiagram_from_json := inr;
  ObjectiveEnum_value := example_objective_value;
  ensure_has_internet := λ A body, body;
  authenticate := example_authenticate;
  str := example_str;
  cloud := server
|}.

Definition without_token : World :=
  {| _authentication_token := None; posts := [] |}.

Definition with_token : World :=
  {| _authentication_token := Some "token"; posts := [] |}.

(** ** Properties of [check_status_code] *)

Section StatusCode.
Context {collaborators : Collaborators}.

Lemma in_one_code (x c : Z) : bool_decide (x ∈ [c]) = bool_decide (x = c).
Proof. apply bool_decide_ext, list_elem_of_singleton. Qed.

Lemma check_status_code_400 response :
  status_code response = 400 →
  check_status_code response
  = (body ← Response_json response; inl (BadRequestException (str body))).
Proof. intros E. unfold check_status_code. rewrite E. reflexivity. Qed.

Lemma check_status_code_426 response :
  status_code response = 426 →
  check_status_code response
  = (body ← Response_json response;
     msg ← getitem body "msg";
     inl (UnauthorizedException
            ("The cloud api is still in the beta phase; this means it might change. "
             +:+ "Message from cloud: " +:+ str msg +:+ "."))).
Proof. intros E. unfold check_status_code. rewrite E. reflexivity. Qed.

Lemma check_status_code_other response :
  status_code response ∉ [200; 400; 401; 402; 403; 426; 504] →
  check_status_code response = inl (UnkownCloudException None).
Proof.
  intros E. unfold check_status_code.
  repeat (apply not_elem_of_cons in E as [? E]).
  rewrite !in_one_code.
  do 6 (rewrite bool_decide_eq_false_2 by assumption).
  rewrite bool_decide_eq_true_2 by assumption. reflexivity.
Qed.

Lemma check_status_code_returns response :
  status_code response = 200 → check_status_code response = inr ().
Proof. intros E. unfold check_status_code. rewrite E. reflexivity. Qed.

Lemma check_status_code_raises response :
  status_code response ≠ 200 → ∃ e, check_status_code response = inl e.
Proof.
  intros Hne. unfold check_status_code.
  repeat case_bool_decide; try (eexists; reflexivity).
  - destruct (Response_json response); eexists; reflexivity.
  - destruct (Response_json response) as [e | body]; [eexists; reflexivity |].
    cbn. destruct (getitem body "msg"); eexists; reflexivity.
  - contradiction.
Qed.

(** C1 (as amended). The classifier follows the table of status codes: 200
    returns; 400 raises [BadRequestException] with the [str] of the decoded
    body, when the body is JSON; 401, 402 and 403 raise
    [UnauthorizedException] with their fixed messages; 426 raises
    [UnauthorizedException] with the [msg] entry of the decoded body in the
    message, when the body is a JSON object with that entry; 504 raises
    [TimeoutError]; every other code raises the bare
    [UnkownCloudException]. *)
Theorem check_status_code_table (response : Response) :
  (status_code response = 200 → check_status_code response = inr ()) ∧
  (status_code response = 400 → ∀ body, json response = Some body →
     check_status_code response = inl (BadRequestException (str body))) ∧
  (status_code response = 401 →
     check_status_code response
     = inl (UnauthorizedException "JWT validation failed: Missing or invalid credentials")) ∧
  (status_code response = 402 →
     check_status_code response
     = inl (UnauthorizedException "Insufficient credits (cpu seconds) left.")) ∧
  (status_code response = 403 →
     check_status_code response = inl (UnauthorizedException "Forbidden.")) ∧
  (status_code response = 426 → ∀ body msg,
     json response = Some body → getitem body "msg" = inr msg →
     check_status_code response
     = inl (UnauthorizedException
              ("The cloud api is still in the beta phase; this means it might change. "
               +:+ "Message from cloud: " +:+ str msg +:+ "."))) ∧
  (status_code response = 504 → check_status_code response = inl TimeoutError) ∧
  (status_code response ∉ [200; 400; 401; 402; 403; 426; 504] →
     check_status_code response = inl (UnkownCloudException None)).
Proof.
  repeat split.
  - apply check_status_code_returns.
  - intros E body Hbody. rewrite (check_status_code_400 _ E).
    unfold Response_json. rewrite Hbody. reflexivity.
  - intros E. unfold check_status_code. rewrite E. reflexivity.
  - intros E. unfold check_status_code. rewrite E. reflexivity.
  - intros E. unfold check_status_code. rewrite E. reflexivity.
  - intros E body msg Hbody Hmsg. rewrite (check_status_code_426 _ E).
    unfold Response_json. rewrite Hbody. cbn. rewrite Hmsg. reflexivity.
  - intros E. unfold check_status_code. rewrite E. reflexivity.
  - apply check_status_code_other.
Qed.

(** C9. With status 400 or 426 and a body that is not JSON the classifier
    raises [JSONDecodeError], and with status 426 and a JSON object without
    the key [msg] it raises [KeyError], in place of the exception of the
    table. Whatever the lookup of [msg] raises on a 426 response is the
    outcome: [KeyError] on an object, [TypeError] on JSON that is not an
    object. *)
Theorem check_status_code_undecodable (response : Response) :
  (status_code response = 400 ∨ status_code response = 426 →
   json response = None →
   check_status_code response = inl JSONDecodeError) ∧
  (status_code response = 426 → ∀ d,
   json response = Some (JDict d) → dict_get d "msg" = None →
   check_status_code response = inl (KeyError "msg")) ∧
  (status_code response = 426 → ∀ body e,
   json response = Some body → getitem body "msg" = inl e →
   check_status_code response = inl e ∧ (e = KeyError "msg" ∨ e = TypeError)).
Proof.
  split; [| split].
  - intros [E | E] Hjson.
    + rewrite (check_status_code_400 _ E). unfold Response_json.
      rewrite Hjson. reflexivity.
    + rewrite (check_status_code_426 _ E). unfold Response_json.
      rewrite Hjson. reflexivity.
  - intros E d Hjson Hmsg. rewrite (check_status_code_426 _ E).
    unfold Response_json. rewrite Hjson. cbn. rewrite Hmsg. reflexivity.
  - intros E body e Hjson Hmsg. split.
    + rewrite (check_status_code_426 _ E).
      unfold Response_json. rewrite Hjson. cbn. rewrite Hmsg. reflexivity.
    + destruct body; cbn in Hmsg; try (right; congruence).
      destruct (dict_get d "msg"); [discriminate | left; congruence].
Qed.

(** A response is decodable when the branch of its status code finds what
    it reads in the body: JSON for 400, a JSON object with the key [msg] for
    426, nothing for the other codes. *)
Definition decodable (response : Response) : Prop :=
  (status_code response = 400 → is_Some (json response)) ∧
  (status_code response = 426 →
   ∃ body msg, json response = Some body ∧ getitem body "msg" = inr msg).

(** C7 (as amended). The classification is total and stable. Every response
    has one outcome: a return exactly when the code is 200, a raise
    otherwise. Inside an operation the outcome is the same in every world,
    and the world is left as it was. For a code other than 400 and 426 the
    outcome is fixed by the code alone. For 400 and 426 two decodable
    responses end in the same exception class and differ in the message at
    most. *)
Theorem check_status_code_total_stable :
  (∀ response,
     (check_status_code response = inr () ↔ status_code response = 200) ∧
     (status_code response ≠ 200 → ∃ e, check_status_code response = inl e)) ∧
  (∀ response w1 w2,
     (lift (check_status_code response) w1).1 = (lift (check_status_code response) w2).1 ∧
     (lift (check_status_code response) w1).2 = w1) ∧
  (∀ r1 r2,
     status_code r1 = status_code r2 →
     status_code r1 ≠ 400 → status_code r1 ≠ 426 →
     check_status_code r1 = check_status_code r2) ∧
  (∀ r1 r2,
     status_code r1 = status_code r2 →
     decodable r1 → decodable r2 →
     outcome_class (check_status_code r1) = outcome_class (check_status_code r2)).
Proof.
  pose proof check_status_code_raises as Hraise.
  split; [| split; [| split]].
  - intros response. split; [split |].
    + intros Hret. destruct (decide (status_code response = 200)) as [E | E]; [exact E |].
      destruct (Hraise _ E) as [e He]. congruence.
    + apply check_status_code_returns.
    + apply Hraise.
  - intros response w1 w2. split; reflexivity.
  - intros r1 r2 E N400 N426. unfold check_status_code. rewrite <- E.
    rewrite !in_one_code.
    rewrite (bool_decide_eq_false_2 (status_code r1 = 400)) by assumption.
    rewrite (bool_decide_eq_false_2 (status_code r1 = 426)) by assumption.
    reflexivity.
  - intros r1 r2 E [D1 D1'] [D2 D2'].
    destruct (decide (status_code r1 = 400)) as [E400 | N400].
    { rewrite (check_status_code_400 r1), (check_status_code_400 r2) by congruence.
      destruct (D1 E400) as [b1 Hb1]. destruct D2 as [b2 Hb2]; [congruence |].
      unfold Response_json. rewrite Hb1, Hb2. reflexivity. }
    destruct (decide (status_code r1 = 426)) as [E426 | N426].
    { rewrite (check_status_code_426 r1), (check_status_code_426 r2) by congruence.
      destruct (D1' E426) as (b1 & m1 & Hb1 & Hm1).
      destruct D2' as (b2 & m2 & Hb2 & Hm2); [congruence |].
      unfold Response_json. rewrite Hb1, Hb2. cbn. rewrite Hm1, Hm2. reflexivity. }
    f_equal. unfold check_status_code. rewrite <- E.
    rewrite !in_one_code.
    rewrite (bool_decide_eq_false_2 (status_code r1 = 400)) by assumption.
    rewrite (bool_decide_eq_false_2 (status_code r1 = 426)) by assumption.
    reflexivity.
Qed.

End StatusCode.

(** ** Properties of the operations *)

Section Operations.
Context {collaborators : Collaborators}.

Lemma for_signalgroup_assert_passes todo arrival_rates :
  Forall (has_arrival_rates arrival_rates) todo →
  for_signalgroup_assert todo arrival_rates = inr ().
Proof.
  induction 1 as [| signalgroup rest (rates & Hrates & Hlen) _ IH]; [reflexivity |].
  cbn. rewrite bool_decide_eq_true_2 by (apply elem_of_dom; eauto).
  cbn. rewrite Hrates. cbn. rewrite bool_decide_eq_true_2 by exact Hlen.
  cbn. exact IH.
Qed.

Lemma for_signalgroup_assert_fails todo arrival_rates :
  Exists (lacks_arrival_rates arrival_rates) todo →
  ∃ msg, for_signalgroup_assert todo arrival_rates = inl (AssertionError msg).
Proof.
  induction todo as [| signalgroup rest IH]; intros Hbad.
  { inversion Hbad. }
  cbn. destruct (id_to_arrival_rates arrival_rates !! id signalgroup) as [rates |] eqn:Hrates.
  - rewrite bool_decide_eq_true_2 by (apply elem_of_dom; eauto). cbn.
    case_bool_decide as Hlen; cbn.
    + apply IH. inversion Hbad as [? ? [Habs | (rates' & Hr & Hl)] | ]; subst.
      * congruence.
      * congruence.
      * assumption.
    + eexists; reflexivity.
  - rewrite bool_decide_eq_false_2 by (rewrite elem_of_dom, Hrates; apply is_Some_None).
    eexists; reflexivity.
Qed.

(** What [get_optimized_fts] does once the assertions pass and a token is
    stored: one post, then the classification and the decoding of the answer. *)
Lemma get_optimized_fts_run intersection arrival_rates a b c w token :
  Forall (has_arrival_rates arrival_rates) (signalgroups intersection) →
  _authentication_token w = Some token →
  let request :=
    fts_optimization_request intersection arrival_rates (default (PyFloat 0.0) a)
      (default (PyInt 180) b) (default min_delay c) token in
  get_optimized_fts intersection arrival_rates a b c w
  = (match cloud (posts w) request with
     | inl ConnectionError => inl (UnkownCloudException (Some connection_not_established))
     | inl e => inl e
     | inr r =>
         check_status_code r;;
         output ← Response_json r;
         objective_value ← getitem output "obj_value";
         fixed_time_schedule ← getitem output "fixed_time_schedule"
                                ≫= FixedTimeSchedule_from_json;
         phase_diagram ← getitem output "phase_diagram" ≫= PhaseDiagram_from_json;
         mret (fixed_time_schedule, phase_diagram, objective_value)
     end, posted w request).
Proof.
  intros Hvalid Htoken request.
  unfold get_optimized_fts, mbind, M_bind, lift.
  rewrite (for_signalgroup_assert_passes _ _ Hvalid).
  unfold read_authentication_token. rewrite Htoken. cbn [format_Bearer].
  unfold try_except_ConnectionError, requests_post, raise.
  subst request. unfold fts_optimization_request, posted.
  destruct (cloud _ _) as [[] | r]; try reflexivity.
  destruct (check_status_code r) as [e | []]; [reflexivity |].
  destruct (Response_json r) as [e | output]; [reflexivity |].
  cbn. destruct (getitem output "obj_value") as [e | v]; [reflexivity |].
  cbn. destruct (getitem output "fixed_time_schedule") as [e | js]; [reflexivity |].
  cbn. destruct (FixedTimeSchedule_from_json js) as [e | fts]; [reflexivity |].
  cbn. destruct (getitem output "phase_diagram") as [e | jp]; [reflexivity |].
  cbn. destruct (PhaseDiagram_from_json jp) as [e | pd]; reflexivity.
Qed.

(** A failed assertion ends the call where the world stands. *)
Lemma get_optimized_fts_asserts intersection arrival_rates a b c w e :
  for_signalgroup_assert (signalgroups intersection) arrival_rates = inl e →
  get_optimized_fts intersection arrival_rates a b c w = (inl e, w).
Proof.
  intros Hfail. unfold get_optimized_fts, mbind, M_bind, lift.
  rewrite Hfail. reflexivity.
Qed.

(** What [get_phase_diagram] does once a token is stored and the schedule has
    its two fields. *)
Lemma get_phase_diagram_run intersection fixed_time_schedule w token g p :
  _authentication_token w = Some token →
  getitem (FixedTimeSchedule_to_json fixed_time_schedule) "greenyellow_intervals" = inr g →
  getitem (FixedTimeSchedule_to_json fixed_time_schedule) "period" = inr p →
  let request := phase_diagram_request intersection g p token in
  get_phase_diagram intersection fixed_time_schedule w
  = (match cloud (posts w) request with
     | inl ConnectionError => inl (UnkownCloudException (Some connection_not_established))
     | inl e => inl e
     | inr r =>
         check_status_code r;;
         output ← Response_json r;
         getitem output "phase_diagram" ≫= PhaseDiagram_from_json
     end, posted w request).
Proof.
  intros Htoken Hg Hp request.
  unfold get_phase_diagram, mbind, M_bind, lift.
  unfold read_authentication_token. rewrite Htoken. cbn [format_Bearer].
  unfold try_except_ConnectionError, requests_post, raise. rewrite Hg, Hp.
  subst request. unfold phase_diagram_request, posted.
  destruct (cloud _ _) as [[] | r]; try reflexivity.
  destruct (check_status_code r) as [e | []]; [reflexivity |].
  destruct (Response_json r) as [e | output]; [reflexivity |].
  cbn. destruct (getitem output "phase_diagram") as [e | jp]; [reflexivity |].
  cbn. destruct (PhaseDiagram_from_json jp) as [e | pd]; reflexivity.
Qed.

(** *** The stored token is only read *)

Lemma keeps_token_ret {A} (x : A) : keeps_token (mret x).
Proof. intros w. reflexivity. Qed.

Lemma keeps_token_raise {A} (e : exn) : keeps_token (@raise A e).
Proof. intros w. reflexivity. Qed.

Lemma keeps_token_lift {A} (r : exn + A) : keeps_token (lift r).
Proof. intros w. reflexivity. Qed.

Lemma keeps_token_read : keeps_token read_authentication_token.
Proof. intros w. reflexivity. Qed.

Lemma keeps_token_post endpoint json headers :
  keeps_token (requests_post endpoint json headers).
Proof. intros w. reflexivity. Qed.

Lemma keeps_token_bind {A B} (c : M A) (f : A → M B) :
  keeps_token c → (∀ x, keeps_token (f x)) → keeps_token (c ≫= f).
Proof.
  intros Hc Hf w. unfold mbind, M_bind.
  specialize (Hc w). destruct (c w) as [[e | x] w']; cbn in *.
  - exact Hc.
  - rewrite Hf. exact Hc.
Qed.

Lemma keeps_token_try {A} (body handler : M A) :
  keeps_token body → keeps_token handler →
  keeps_token (try_except_ConnectionError body handler).
Proof.
  intros Hb Hh w. unfold try_except_ConnectionError.
  specialize (Hb w). destruct (body w) as [[[] | x] w']; cbn in *; try exact Hb.
  rewrite Hh. exact Hb.
Qed.

End Operations.

Create HintDb keeps_token.

#[local] Hint Resolve keeps_token_ret keeps_token_raise keeps_token_lift keeps_token_read
  keeps_token_post keeps_token_try : keeps_token.

Ltac solve_keeps_token :=
  repeat first
    [ apply keeps_token_bind; [| intros ?]
    | solve [auto with keeps_token]
    | apply keeps_token_try ].

Section Claims.
Context {collaborators : Collaborators}.

(** C10. The two operation bodies leave the class attribute
    [_authentication_token] as they found it, however the call ends. *)
Theorem operations_keep_token :
  (∀ intersection arrival_rates a b c w,
     _authentication_token (get_optimized_fts intersection arrival_rates a b c w).2
     = _authentication_token w) ∧
  (∀ intersection fixed_time_schedule w,
     _authentication_token (get_phase_diagram intersection fixed_time_schedule w).2
     = _authentication_token w).
Proof.
  split.
  - intros intersection arrival_rates a b c.
    change (keeps_token (get_optimized_fts intersection arrival_rates a b c)).
    unfold get_optimized_fts. solve_keeps_token.
  - intros intersection fixed_time_schedule.
    change (keeps_token (get_phase_diagram intersection fixed_time_schedule)).
    unfold get_phase_diagram. solve_keeps_token.
Qed.

(** C2. When some signal group has no entry in the arrival rates, or an
    entry of another length than its list of traffic lights,
    [get_optimized_fts] raises [AssertionError] and [requests.post] has not
    been called. *)
Theorem get_optimized_fts_validates_first intersection arrival_rates a b c w :
  Exists (lacks_arrival_rates arrival_rates) (signalgroups intersection) →
  ∃ msg,
    (get_optimized_fts intersection arrival_rates a b c w).1 = inl (AssertionError msg)
    ∧ posts (get_optimized_fts intersection arrival_rates a b c w).2 = posts w.
Proof.
  intros Hbad. destruct (for_signalgroup_assert_fails _ _ Hbad) as [msg Hmsg].
  exists msg. rewrite (get_optimized_fts_asserts _ _ _ _ _ _ _ Hmsg). split; reflexivity.
Qed.

(** C3 (as amended). For a valid input and a stored token,
    [get_optimized_fts] calls [requests.post] once, on the fts-optimization
    endpoint, with the bearer token in the authorization header and a body
    of seven fields: intersection, arrival_rates, min_period_duration,
    max_period_duration, objective, and the two constants version and
    request_id. *)
Theorem get_optimized_fts_posts_once intersection arrival_rates a b c w token :
  Forall (has_arrival_rates arrival_rates) (signalgroups intersection) →
  _authentication_token w = Some token →
  ∃ request,
    posts (get_optimized_fts intersection arrival_rates a b c w).2 = posts w ++ [request]
    ∧ endpoint request = CLOUD_API_URL +:+ "/fts-optimization"
    ∧ json_dict request
      = JDict [
          ("intersection", Intersection_to_json intersection);
          ("arrival_rates", ArrivalRates_to_json arrival_rates);
          ("min_period_duration", JNum (default (PyFloat 0.0) a));
          ("max_period_duration", JNum (default (PyInt 180) b));
          ("objective", ObjectiveEnum_value (default min_delay c));
          ("version", JStr "0.7.0.alpha");
          ("request_id", JStr "123-456")]
    ∧ fields (json_dict request)
      = ["intersection"; "arrival_rates"; "min_period_duration"; "max_period_duration";
         "objective"; "version"; "request_id"]
    ∧ headers request = {[ "authorization" := "Bearer " +:+ token ]}.
Proof.
  intros Hvalid Htoken. eexists.
  rewrite (get_optimized_fts_run _ _ a b c _ _ Hvalid Htoken).
  repeat split; reflexivity.
Qed.

(** C4. When [requests.post] raises [ConnectionError], each operation raises
    [UnkownCloudException] with the message that the connection could not be
    established, and not the [ConnectionError] itself. *)
Theorem connection_error_is_reported :
  (∀ intersection arrival_rates a b c w token,
     Forall (has_arrival_rates arrival_rates) (signalgroups intersection) →
     _authentication_token w = Some token →
     cloud (posts w)
       (fts_optimization_request intersection arrival_rates (default (PyFloat 0.0) a)
          (default (PyInt 180) b) (default min_delay c) token)
     = inl ConnectionError →
     (get_optimized_fts intersection arrival_rates a b c w).1
     = inl (UnkownCloudException
              (Some "Connection with swift mobility cloud api could not be established"))) ∧
  (∀ intersection fixed_time_schedule w token g p,
     _authentication_token w = Some token →
     getitem (FixedTimeSchedule_to_json fixed_time_schedule) "greenyellow_intervals"
     = inr g →
     getitem (FixedTimeSchedule_to_json fixed_time_schedule) "period" = inr p →
     cloud (posts w) (phase_diagram_request intersection g p token) = inl ConnectionError →
     (get_phase_diagram intersection fixed_time_schedule w).1
     = inl (UnkownCloudException
              (Some "Connection with swift mobility cloud api could not be established"))).
Proof.
  split.
  - intros intersection arrival_rates a b c w token Hvalid Htoken Hcloud.
    rewrite (get_optimized_fts_run _ _ a b c _ _ Hvalid Htoken).
    cbv zeta. rewrite Hcloud. reflexivity.
  - intros intersection fixed_time_schedule w token g p Htoken Hg Hp Hcloud.
    rewrite (get_phase_diagram_run _ _ _ _ _ _ Htoken Hg Hp).
    cbv zeta. rewrite Hcloud. reflexivity.
Qed.

(** C5. When the service answers the request of [get_optimized_fts] with
    status 200 and a JSON object with the fields [fixed_time_schedule],
    [phase_diagram] and [obj_value], the call returns the schedule and the
    phase diagram decoded from the first two and the value of the third as
    it is. When it answers with another status the call raises what
    [check_status_code] raises, and returns nothing. *)
Theorem get_optimized_fts_result intersection arrival_rates a b c w token r :
  Forall (has_arrival_rates arrival_rates) (signalgroups intersection) →
  _authentication_token w = Some token →
  cloud (posts w)
    (fts_optimization_request intersection arrival_rates (default (PyFloat 0.0) a)
       (default (PyInt 180) b) (default min_delay c) token)
  = inr r →
  (status_code r = 200 →
   ∀ output js jp objective_value fixed_time_schedule phase_diagram,
     json r = Some output →
     getitem output "fixed_time_schedule" = inr js →
     getitem output "phase_diagram" = inr jp →
     getitem output "obj_value" = inr objective_value →
     FixedTimeSchedule_from_json js = inr fixed_time_schedule →
     PhaseDiagram_from_json jp = inr phase_diagram →
     (get_optimized_fts intersection arrival_rates a b c w).1
     = inr (fixed_time_schedule, phase_diagram, objective_value)) ∧
  (status_code r ≠ 200 →
   ∃ e, check_status_code r = inl e
        ∧ (get_optimized_fts intersection arrival_rates a b c w).1 = inl e).
Proof.
  intros Hvalid Htoken Hcloud.
  rewrite (get_optimized_fts_run _ _ a b c _ _ Hvalid Htoken).
  cbv zeta. rewrite Hcloud. cbn [fst]. split.
  - intros E200 output js jp v fts pd Hjson Hjs Hjp Hv Hfts Hpd.
    apply check_status_code_returns in E200. rewrite E200.
    unfold Response_json. rewrite Hjson. cbn. rewrite Hv. cbn.
    rewrite Hjs. cbn. rewrite Hfts. cbn. rewrite Hjp. cbn. rewrite Hpd. reflexivity.
  - intros Hne. destruct (check_status_code_raises _ Hne) as [e He].
    exists e. rewrite He. split; reflexivity.
Qed.

(** C6. For a stored token and a schedule whose JSON form has the fields
    [greenyellow_intervals] and [period], [get_phase_diagram] calls
    [requests.post] once, on the phase-diagram endpoint, with the bearer
    token in the authorization header and the body
    [{intersection, greenyellow_intervals, period}], the last two taken from
    the JSON form of the schedule; on an answer with status 200 it returns
    the phase diagram decoded from the field [phase_diagram] of the answer. *)
Theorem get_phase_diagram_contract intersection fixed_time_schedule w token g p :
  _authentication_token w = Some token →
  getitem (FixedTimeSchedule_to_json fixed_time_schedule) "greenyellow_intervals" = inr g →
  getitem (FixedTimeSchedule_to_json fixed_time_schedule) "period" = inr p →
  ∃ request,
    posts (get_phase_diagram intersection fixed_time_schedule w).2 = posts w ++ [request]
    ∧ endpoint request = CLOUD_API_URL +:+ "/phase-diagram-computation"
    ∧ json_dict request
      = JDict [("intersection", Intersection_to_json intersection);
               ("greenyellow_intervals", g);
               ("period", p)]
    ∧ headers request = {[ "authorization" := "Bearer " +:+ token ]}
    ∧ ∀ r output jp,
        cloud (posts w) request = inr r →
        status_code r = 200 →
        json r = Some output →
        getitem output "phase_diagram" = inr jp →
        (get_phase_diagram intersection fixed_time_schedule w).1
        = PhaseDiagram_from_json jp.
Proof.
  intros Htoken Hg Hp. exists (phase_diagram_request intersection g p token).
  rewrite (get_phase_diagram_run _ _ _ _ _ _ Htoken Hg Hp). cbv zeta.
  repeat split.
  intros r output jp Hcloud E200 Hjson Hjp. rewrite Hcloud. cbn [fst].
  apply check_status_code_returns in E200. rewrite E200.
  unfold Response_json. rewrite Hjson. cbn. rewrite Hjp. reflexivity.
Qed.

(** C8. An omitted [min_period_duration] is 0.0, an omitted
    [max_period_duration] is 180 (the integer, the same number as 180.0) and
    an omitted [objective] is [ObjectiveEnum.min_delay]: the call without the
    three arguments is the call with these values, and posts them. *)
Theorem get_optimized_fts_defaults intersection arrival_rates :
  get_optimized_fts intersection arrival_rates None None None
  = get_optimized_fts intersection arrival_rates (Some (PyFloat 0.0)) (Some (PyInt 180))
      (Some min_delay)
  ∧ pynum_eqb (PyInt 180) (PyFloat 180.0) = true
  ∧ (∀ a b c,
       get_optimized_fts intersection arrival_rates a b c
       = get_optimized_fts intersection arrival_rates (Some (default (PyFloat 0.0) a))
           (Some (default (PyInt 180) b)) (Some (default min_delay c)))
  ∧ (∀ w token,
       Forall (has_arrival_rates arrival_rates) (signalgroups intersection) →
       _authentication_token w = Some token →
       posts (get_optimized_fts intersection arrival_rates None None None w).2
       = posts w ++ [fts_optimization_request intersection arrival_rates (PyFloat 0.0)
                       (PyInt 180) min_delay token]).
Proof.
  split; [reflexivity | split; [reflexivity | split]].
  - intros a b c. reflexivity.
  - intros w token Hvalid Htoken.
    rewrite (get_optimized_fts_run _ _ None None None _ _ Hvalid Htoken). reflexivity.
Qed.

End Claims.

(** ** The properties on the example deployment *)

Ltac example_rates_valid :=
  repeat constructor; eexists; split; reflexivity.

(** C1, as stated, fails on a 400 response whose body is not JSON: what is
    raised is not a [BadRequestException]. *)
Lemma check_status_code_400_body_not_json :
  ¬ ∃ msg,
      @check_status_code (example unreachable) {| status_code := 400; json := None |}
      = inl (BadRequestException msg).
Proof. intros [msg Hmsg]. discriminate Hmsg. Qed.

Lemma check_status_code_table_witness :
  @check_status_code (example unreachable)
    {| status_code := 400; json := Some (JStr "no such intersection") |}
  = inl (BadRequestException "no such intersection")
  ∧ @check_status_code (example unreachable) upgrade_required
    = inl (UnauthorizedException
             ("The cloud api is still in the beta phase; this means it might change. "
              +:+ "Message from cloud: upgrade the client.")).
Proof.
  split.
  - destruct (@check_status_code_table (example unreachable)
                {| status_code := 400; json := Some (JStr "no such intersection") |})
      as (_ & H400 & _).
    apply (H400 eq_refl (JStr "no such intersection") eq_refl).
  - destruct (@check_status_code_table (example unreachable) upgrade_required)
      as (_ & _ & _ & _ & _ & H426 & _).
    apply (H426 eq_refl (JDict [("msg", JStr "upgrade the client")])
             (JStr "upgrade the client") eq_refl eq_refl).
Defined.

Lemma check_status_code_undecodable_witness :
  @check_status_code (example unreachable) {| status_code := 426; json := None |}
  = inl JSONDecodeError
  ∧ @check_status_code (example unreachable)
      {| status_code := 426; json := Some (JDict [("message", JStr "upgrade")]) |}
    = inl (KeyError "msg")
  ∧ @check_status_code (example unreachable)
      {| status_code := 426; json := Some (JList []) |}
    = inl TypeError.
Proof.
  split; [| split].
  - destruct (@check_status_code_undecodable (example unreachable)
                {| status_code := 426; json := None |}) as [Hjson _].
    apply Hjson; [right |]; reflexivity.
  - destruct (@check_status_code_undecodable (example unreachable)
                {| status_code := 426; json := Some (JDict [("message", JStr "upgrade")]) |})
      as (_ & Hkey & _).
    apply (Hkey eq_refl [("message", JStr "upgrade")]); reflexivity.
  - destruct (@check_status_code_undecodable (example unreachable)
                {| status_code := 426; json := Some (JList []) |})
      as (_ & _ & Hlookup).
    apply (Hlookup eq_refl (JList []) TypeError); reflexivity.
Defined.

(** C7, as stated, fails on two 426 responses, one with the key [msg] and
    one without: the same status code ends in two different exception
    classes. *)
Lemma check_status_code_426_two_classes :
  ¬ (∀ r1 r2,
       status_code r1 = status_code r2 →
       outcome_class (@check_status_code (example unreachable) r1)
       = outcome_class (@check_status_code (example unreachable) r2)).
Proof.
  intros Hsame.
  specialize (Hsame upgrade_required {| status_code := 426; json := Some (JDict []) |} eq_refl).
  discriminate Hsame.
Qed.

Lemma check_status_code_total_stable_witness :
  outcome_class (@check_status_code (example unreachable) upgrade_required)
  = outcome_class
      (@check_status_code (example unreachable)
         {| status_code := 426; json := Some (JDict [("msg", JNone)]) |}).
Proof.
  destruct (@check_status_code_total_stable (example unreachable)) as (_ & _ & _ & Hclass).
  apply Hclass; [reflexivity | |]; (split; [discriminate | intros _; eauto]).
Defined.

Lemma get_optimized_fts_validates_first_witness :
  (∃ msg,
     (@get_optimized_fts (example (answers ok_response)) example_intersection
        example_rates_without_B None None None with_token).1
     = inl (AssertionError msg)
     ∧ posts (@get_optimized_fts (example (answers ok_response)) example_intersection
                example_rates_without_B None None None with_token).2
       = [])
  ∧ (∃ msg,
       (@get_optimized_fts (example (answers ok_response)) example_intersection
          example_rates_short_B None None None with_token).1
       = inl (AssertionError msg)
       ∧ posts (@get_optimized_fts (example (answers ok_response)) example_intersection
                  example_rates_short_B None None None with_token).2
         = []).
Proof.
  split.
  - apply (@get_optimized_fts_validates_first (example (answers ok_response))).
    apply Exists_cons_tl, Exists_cons_hd. left. reflexivity.
  - apply (@get_optimized_fts_validates_first (example (answers ok_response))).
    apply Exists_cons_tl, Exists_cons_hd. right. exists [PyInt 150].
    split; [reflexivity | discriminate].
Defined.

(** The message names the signal group without arrival rates. *)
Example get_optimized_fts_without_B :
  @get_optimized_fts (example (answers ok_response)) example_intersection
    example_rates_without_B None None None with_token
  = (inl (AssertionError "arrival rate(s) must be specified for signalgroup B"),
     with_token).
Proof. reflexivity. Qed.

(** C3, as stated, fails on the scenario of two signal groups: the body of
    the one request has fields other than the five of the claim. *)
Lemma get_optimized_fts_posts_other_fields :
  ¬ ∃ request,
      posts (@get_optimized_fts (example (answers ok_response)) example_intersection
               example_arrival_rates None None None with_token).2
      = [request]
      ∧ ∀ k, k ∈ fields (json_dict request)
             ↔ k ∈ ["intersection"; "arrival_rates"; "min_period_duration";
                    "max_period_duration"; "objective"].
Proof.
  intros (request & Hposts & Hfields).
  vm_compute in Hposts. injection Hposts as <-.
  assert (Hin : "version" ∈ ["intersection"; "arrival_rates"; "min_period_duration";
                             "max_period_duration"; "objective"]).
  { apply Hfields. cbn. do 5 apply list_elem_of_further. apply list_elem_of_here. }
  apply list_elem_of_In in Hin. cbn in Hin.
  repeat (destruct Hin as [Hin | Hin]; [discriminate Hin |]). exact Hin.
Qed.

Lemma get_optimized_fts_posts_once_witness :
  ∃ request,
    posts (@get_optimized_fts (example (answers ok_response)) example_intersection
             example_arrival_rates None None None with_token).2
    = [] ++ [request]
    ∧ fields (json_dict request)
      = ["intersection"; "arrival_rates"; "min_period_duration"; "max_period_duration";
         "objective"; "version"; "request_id"].
Proof.
  destruct (@get_optimized_fts_posts_once (example (answers ok_response))
              example_intersection example_arrival_rates None None None with_token "token")
    as (request & Hposts & _ & _ & Hfields & _).
  - example_rates_valid.
  - reflexivity.
  - exists request. split; assumption.
Defined.

Lemma connection_error_is_reported_witness :
  (@get_optimized_fts (example unreachable) example_intersection example_arrival_rates
     None None None with_token).1
  = inl (UnkownCloudException
           (Some "Connection with swift mobility cloud api could not be established"))
  ∧ (@get_phase_diagram (example unreachable) example_intersection example_schedule
       with_token).1
    = inl (UnkownCloudException
             (Some "Connection with swift mobility cloud api could not be established")).
Proof.
  destruct (@connection_error_is_reported (example unreachable)) as [Hfts Hpd]. split.
  - apply (Hfts example_intersection example_arrival_rates None None None with_token "token").
    + example_rates_valid.
    + reflexivity.
    + reflexivity.
  - apply (Hpd example_intersection example_schedule with_token "token"
             (greenyellow_intervals example_schedule) (period example_schedule));
      reflexivity.
Defined.

Lemma get_optimized_fts_result_witness :
  (@get_optimized_fts (example (answers ok_response)) example_intersection
     example_arrival_rates None None (Some min_delay) with_token).1
  = inr (example_schedule, example_phase_diagram, JNum (PyFloat 12.5))
  ∧ ∃ e,
      @check_status_code (example (answers payment_required)) payment_required = inl e
      ∧ (@get_optimized_fts (example (answers payment_required)) example_intersection
           example_arrival_rates None None (Some min_delay) with_token).1
        = inl e.
Proof.
  split.
  - destruct (@get_optimized_fts_result (example (answers ok_response))
                example_intersection example_arrival_rates None None (Some min_delay)
                with_token "token" ok_response) as [H200 _].
    + example_rates_valid.
    + reflexivity.
    + reflexivity.
    + apply (H200 eq_refl example_output (example_schedule_to_json example_schedule)
               example_phase_diagram); reflexivity.
  - destruct (@get_optimized_fts_result (example (answers payment_required))
                example_intersection example_arrival_rates None None (Some min_delay)
                with_token "token" payment_required) as [_ Hother].
    + example_rates_valid.
    + reflexivity.
    + reflexivity.
    + apply Hother. discriminate.
Defined.

Lemma get_phase_diagram_contract_witness :
  ∃ request,
    posts (@get_phase_diagram (example (answers ok_response)) example_intersection
             example_schedule with_token).2
    = [] ++ [request]
    ∧ fields (json_dict request) = ["intersection"; "greenyellow_intervals"; "period"]
    ∧ (@get_phase_diagram (example (answers ok_response)) example_intersection
         example_schedule with_token).1
      = inr example_phase_diagram.
Proof.
  destruct (@get_phase_diagram_contract (example (answers ok_response))
              example_intersection example_schedule with_token "token"
              (greenyellow_intervals example_schedule) (period example_schedule))
    as (request & Hposts & _ & Hbody & _ & Hresult); try reflexivity.
  exists request. split; [exact Hposts |]. split.
  - rewrite Hbody. reflexivity.
  - apply (Hresult ok_response example_output example_phase_diagram); reflexivity.
Defined.

Lemma get_optimized_fts_defaults_witness :
  ∃ request,
    posts (@get_optimized_fts (example (answers ok_response)) example_intersection
             example_arrival_rates None None None with_token).2
    = [request]
    ∧ getitem (json_dict request) "min_period_duration" = inr (JNum (PyFloat 0.0))
    ∧ getitem (json_dict request) "max_period_duration" = inr (JNum (PyInt 180))
    ∧ getitem (json_dict request) "objective" = inr (JStr "min_delay").
Proof.
  destruct (@get_optimized_fts_defaults (example (answers ok_response))
              example_intersection example_arrival_rates) as (_ & _ & _ & Hposts).
  eexists. split.
  - apply (Hposts with_token "token"); [example_rates_valid | reflexivity].
  - repeat split.
Defined.

(** The class method on the example deployment: the decorator stores the
    token, the body posts and decodes the answer. *)
Example SwiftMobilityCloudApi_get_optimized_fts_example :
  (@SwiftMobilityCloudApi_get_optimized_fts (example (answers ok_response))
     example_intersection example_arrival_rates None None None
     {| _authentication_token := None; posts := [] |}).1
  = inr (example_schedule, example_phase_diagram, JNum (PyFloat 12.5)).
Proof. reflexivity. Qed.

(** Without the decorator no token is stored and the header cannot be
    formatted. *)
Example get_optimized_fts_without_token :
  @get_optimized_fts (example (answers ok_response)) example_intersection
    example_arrival_rates None None None {| _authentication_token := None; posts := [] |}
  = (inl TypeError, {| _authentication_token := None; posts := [] |}).
Proof. reflexivity. Qed.

(** A schedule that is posted and echoed by the service decodes to itself. *)
Example example_schedule_round_trip :
  example_schedule_from_json (example_schedule_to_json example_schedule)
  = inr example_schedule.
Proof. reflexivity. Qed.

(** ** Further properties of the operations *)

Section Paths.
Context {collaborators : Collaborators}.

Lemma has_or_lacks_arrival_rates arrival_rates (signalgroup : SignalGroup TrafficLight) :
  has_arrival_rates arrival_rates signalgroup
  ∨ lacks_arrival_rates arrival_rates signalgroup.
Proof.
  unfold has_arrival_rates, lacks_arrival_rates.
  destruct (id_to_arrival_rates arrival_rates !! id signalgroup) as [rates |];
    [| right; left; reflexivity].
  destruct (decide (length rates = length (traffic_lights signalgroup))).
  - left. eauto.
  - right. right. eauto.
Qed.

Lemma has_not_lacks_arrival_rates arrival_rates (signalgroup : SignalGroup TrafficLight) :
  has_arrival_rates arrival_rates signalgroup →
  ¬ lacks_arrival_rates arrival_rates signalgroup.
Proof.
  intros (rates & Hrates & Hlen) [Habsent | (rates' & Hrates' & Hlen')]; congruence.
Qed.

Lemma all_have_or_one_lacks arrival_rates (todo : list (SignalGroup TrafficLight)) :
  Forall (has_arrival_rates arrival_rates) todo
  ∨ Exists (lacks_arrival_rates arrival_rates) todo.
Proof.
  induction todo as [| signalgroup rest [IH | IH]].
  - left. constructor.
  - destruct (has_or_lacks_arrival_rates arrival_rates signalgroup).
    + left. constructor; assumption.
    + right. apply Exists_cons_hd. assumption.
  - right. apply Exists_cons_tl. assumption.
Qed.

Lemma for_signalgroup_assert_inr todo arrival_rates :
  for_signalgroup_assert todo arrival_rates = inr () →
  Forall (has_arrival_rates arrival_rates) todo.
Proof.
  intros Hok. destruct (all_have_or_one_lacks arrival_rates todo) as [? | Hbad]; [assumption |].
  destruct (for_signalgroup_assert_fails _ _ Hbad) as [msg Hmsg]. congruence.
Qed.

Lemma getitem_raises j key e :
  getitem j key = inl e → e = KeyError key ∨ e = TypeError.
Proof.
  destruct j; cbn; try (intros [= <-]; right; reflexivity).
  destruct (dict_get d key); [discriminate |]. intros [= <-]. left. reflexivity.
Qed.

(** [get_optimized_fts], path by path. *)
Lemma get_optimized_fts_paths intersection arrival_rates a b c w :
  get_optimized_fts intersection arrival_rates a b c w
  = match for_signalgroup_assert (signalgroups intersection) arrival_rates with
    | inl e => (inl e, w)
    | inr _ =>
        match _authentication_token w with
        | None => (inl TypeError, w)
        | Some token =>
            let request :=
              fts_optimization_request intersection arrival_rates
                (default (PyFloat 0.0) a) (default (PyInt 180) b) (default min_delay c)
                token in
            (after_post parse_fts_output (cloud (posts w) request), posted w request)
        end
    end.
Proof.
  destruct (for_signalgroup_assert (signalgroups intersection) arrival_rates)
    as [e | []] eqn:Hloop.
  { apply get_optimized_fts_asserts, Hloop. }
  destruct (_authentication_token w) as [token |] eqn:Htoken.
  - apply for_signalgroup_assert_inr in Hloop.
    rewrite (get_optimized_fts_run _ _ a b c _ _ Hloop Htoken). reflexivity.
  - unfold get_optimized_fts, mbind, M_bind, lift, read_authentication_token.
    rewrite Hloop, Htoken. reflexivity.
Qed.

(** [get_phase_diagram], path by path. *)
Lemma get_phase_diagram_paths intersection fixed_time_schedule w :
  get_phase_diagram intersection fixed_time_schedule w
  = match _authentication_token w with
    | None => (inl TypeError, w)
    | Some token =>
        match getitem (FixedTimeSchedule_to_json fixed_time_schedule)
                "greenyellow_intervals" with
        | inl e => (inl e, w)
        | inr g =>
            match getitem (FixedTimeSchedule_to_json fixed_time_schedule) "period" with
            | inl e => (inl e, w)
            | inr p =>
                let request := phase_diagram_request intersection g p token in
                (after_post parse_phase_diagram_output (cloud (posts w) request),
                 posted w request)
            end
        end
    end.
Proof.
  destruct (_authentication_token w) as [token |] eqn:Htoken.
  - destruct (getitem _ "greenyellow_intervals") as [e | g] eqn:Hg.
    { unfold get_phase_diagram, mbind, M_bind, lift, read_authentication_token.
      rewrite Htoken. cbn [format_Bearer]. unfold try_except_ConnectionError.
      rewrite Hg. destruct (getitem_raises _ _ _ Hg) as [-> | ->]; reflexivity. }
    destruct (getitem _ "period") as [e | p] eqn:Hp.
    { unfold get_phase_diagram, mbind, M_bind, lift, read_authentication_token.
      rewrite Htoken. cbn [format_Bearer]. unfold try_except_ConnectionError.
      rewrite Hg, Hp. destruct (getitem_raises _ _ _ Hp) as [-> | ->]; reflexivity. }
    rewrite (get_phase_diagram_run _ _ _ _ _ _ Htoken Hg Hp). reflexivity.
  - unfold get_phase_diagram, mbind, M_bind, lift, read_authentication_token.
    rewrite Htoken. reflexivity.
Qed.

End Paths.

Section Edges.
Context {collaborators : Collaborators}.

(** X1. The loop of assertions passes exactly when every signal group has
    an entry of the length of its traffic lights, raises [AssertionError]
    exactly when one has not, and raises nothing else: the lookup after the
    first assertion never ends in a [KeyError]. *)
Theorem for_signalgroup_assert_decides todo arrival_rates :
  (for_signalgroup_assert todo arrival_rates = inr ()
   ↔ Forall (has_arrival_rates arrival_rates) todo)
  ∧ ((∃ msg, for_signalgroup_assert todo arrival_rates = inl (AssertionError msg))
     ↔ Exists (lacks_arrival_rates arrival_rates) todo)
  ∧ (∀ e, for_signalgroup_assert todo arrival_rates = inl e → ∃ msg, e = AssertionError msg).
Proof.
  split; [| split].
  - split; [apply for_signalgroup_assert_inr | apply for_signalgroup_assert_passes].
  - split; [| apply for_signalgroup_assert_fails].
    intros [msg Hmsg]. destruct (all_have_or_one_lacks arrival_rates todo) as [Hall | ?];
      [| assumption].
    rewrite (for_signalgroup_assert_passes _ _ Hall) in Hmsg. discriminate.
  - intros e He. destruct (all_have_or_one_lacks arrival_rates todo) as [Hall | Hbad].
    + rewrite (for_signalgroup_assert_passes _ _ Hall) in He. discriminate.
    + destruct (for_signalgroup_assert_fails _ _ Hbad) as [msg Hmsg].
      exists msg. congruence.
Qed.

(** X2. The assertion that fails is the one of the first signal group, in
    the order of the intersection, that lacks its arrival rates, and its
    message names that group: the message of the first assertion when the
    entry is absent, of the second when the entry has another length. *)
Theorem for_signalgroup_assert_first_offender before signalgroup after arrival_rates :
  Forall (has_arrival_rates arrival_rates) before →
  (id_to_arrival_rates arrival_rates !! id signalgroup = None →
   for_signalgroup_assert (before ++ signalgroup :: after) arrival_rates
   = inl (AssertionError
            ("arrival rate(s) must be specified for signalgroup " +:+ id signalgroup)))
  ∧ (∀ rates,
       id_to_arrival_rates arrival_rates !! id signalgroup = Some rates →
       length rates ≠ length (traffic_lights signalgroup) →
       for_signalgroup_assert (before ++ signalgroup :: after) arrival_rates
       = inl (AssertionError
                ("arrival rate(s) must be specified for all traffic lights of signalgroup "
                 +:+ id signalgroup))).
Proof.
  induction 1 as [| first rest (rates0 & Hrates0 & Hlen0) _ IH].
  - split.
    + intros Habsent. cbn.
      rewrite bool_decide_eq_false_2
        by (rewrite elem_of_dom, Habsent; apply is_Some_None).
      reflexivity.
    + intros rates Hrates Hlen. cbn.
      rewrite bool_decide_eq_true_2 by (apply elem_of_dom; eauto).
      cbn. rewrite Hrates. cbn. rewrite bool_decide_eq_false_2 by exact Hlen.
      reflexivity.
  - assert (Hstep : ∀ more,
              for_signalgroup_assert (first :: more) arrival_rates
              = for_signalgroup_assert more arrival_rates).
    { intros more. cbn. rewrite bool_decide_eq_true_2 by (apply elem_of_dom; eauto).
      cbn. rewrite Hrates0. cbn. rewrite bool_decide_eq_true_2 by exact Hlen0.
      reflexivity. }
    destruct IH as [IHabsent IHlen]. split.
    + intros Habsent. rewrite <- app_comm_cons, Hstep. apply IHabsent, Habsent.
    + intros rates Hrates Hlen. rewrite <- app_comm_cons, Hstep.
      apply (IHlen rates Hrates Hlen).
Qed.

(** X3. Only the signal groups of the intersection are looked up: arrival
    rates that pass the assertions still pass them with entries added for
    other identifiers. *)
Theorem for_signalgroup_assert_surplus todo arrival_rates more_rates :
  id_to_arrival_rates arrival_rates ⊆ id_to_arrival_rates more_rates →
  for_signalgroup_assert todo arrival_rates = inr () →
  for_signalgroup_assert todo more_rates = inr ().
Proof.
  intros Hsub Hok. apply for_signalgroup_assert_passes.
  apply for_signalgroup_assert_inr in Hok.
  eapply Forall_impl; [exact Hok |].
  intros signalgroup (rates & Hrates & Hlen). exists rates. split; [| exact Hlen].
  eapply lookup_weaken; eassumption.
Qed.

(** X4. Whatever the input, the world and the service, a call of either
    operation calls [requests.post] at most once: it leaves the world as it
    was, or with one more post, to the endpoint of the operation. *)
Theorem operations_post_at_most_once :
  (∀ intersection arrival_rates a b c w,
     (get_optimized_fts intersection arrival_rates a b c w).2 = w
     ∨ ∃ request,
         (get_optimized_fts intersection arrival_rates a b c w).2 = posted w request
         ∧ endpoint request = CLOUD_API_URL +:+ "/fts-optimization")
  ∧ (∀ intersection fixed_time_schedule w,
       (get_phase_diagram intersection fixed_time_schedule w).2 = w
       ∨ ∃ request,
           (get_phase_diagram intersection fixed_time_schedule w).2 = posted w request
           ∧ endpoint request = CLOUD_API_URL +:+ "/phase-diagram-computation").
Proof.
  split.
  - intros intersection arrival_rates a b c w. rewrite get_optimized_fts_paths.
    destruct (for_signalgroup_assert _ _); [left; reflexivity |].
    destruct (_authentication_token w); [| left; reflexivity].
    right. eexists. split; reflexivity.
  - intros intersection fixed_time_schedule w. rewrite get_phase_diagram_paths.
    destruct (_authentication_token w); [| left; reflexivity].
    destruct (getitem _ "greenyellow_intervals"); [left; reflexivity |].
    destruct (getitem _ "period"); [left; reflexivity |].
    right. eexists. split; reflexivity.
Qed.

(** X5. With no token stored ([_authentication_token] is [None]) the header
    cannot be formatted: [get_phase_diagram], and [get_optimized_fts] once
    its assertions pass, raise [TypeError] and post nothing. *)
Theorem operations_without_token w :
  _authentication_token w = None →
  (∀ intersection arrival_rates a b c,
     Forall (has_arrival_rates arrival_rates) (signalgroups intersection) →
     get_optimized_fts intersection arrival_rates a b c w = (inl TypeError, w))
  ∧ (∀ intersection fixed_time_schedule,
       get_phase_diagram intersection fixed_time_schedule w = (inl TypeError, w)).
Proof.
  intros Htoken. split.
  - intros intersection arrival_rates a b c Hvalid. rewrite get_optimized_fts_paths.
    rewrite (for_signalgroup_assert_passes _ _ Hvalid), Htoken. reflexivity.
  - intros intersection fixed_time_schedule. rewrite get_phase_diagram_paths, Htoken.
    reflexivity.
Qed.

(** X6. When the JSON form of the schedule has no [greenyellow_intervals],
    or has it but no [period], [get_phase_diagram] raises the error of that
    lookup ([KeyError] of the field, or [TypeError] when the form is no
    object); the except clause does not catch it and nothing is posted. *)
Theorem get_phase_diagram_schedule_without_field intersection fixed_time_schedule w token :
  _authentication_token w = Some token →
  (∀ e,
     getitem (FixedTimeSchedule_to_json fixed_time_schedule) "greenyellow_intervals"
     = inl e →
     get_phase_diagram intersection fixed_time_schedule w = (inl e, w)
     ∧ (e = KeyError "greenyellow_intervals" ∨ e = TypeError))
  ∧ (∀ g e,
       getitem (FixedTimeSchedule_to_json fixed_time_schedule) "greenyellow_intervals"
       = inr g →
       getitem (FixedTimeSchedule_to_json fixed_time_schedule) "period" = inl e →
       get_phase_diagram intersection fixed_time_schedule w = (inl e, w)
       ∧ e = KeyError "period").
Proof.
  intros Htoken. split.
  - intros e Hg. rewrite get_phase_diagram_paths, Htoken, Hg.
    split; [reflexivity | apply (getitem_raises _ _ _ Hg)].
  - intros g e Hg Hp. rewrite get_phase_diagram_paths, Htoken, Hg, Hp.
    split; [reflexivity |].
    destruct (getitem_raises _ _ _ Hp) as [-> | ->]; [reflexivity |].
    destruct (FixedTimeSchedule_to_json fixed_time_schedule); cbn in Hg, Hp;
      try discriminate.
    destruct (dict_get d "period"); discriminate.
Qed.


(** X8. [get_optimized_fts] returns a triple only along one path: the
    assertions passed, a token was stored, the one request was posted, the
    service answered it with status 200 and a JSON object, and the triple is
    the schedule and the phase diagram decoded from its fields
    [fixed_time_schedule] and [phase_diagram] and the value of [obj_value]. *)
Theorem get_optimized_fts_returns_only_if intersection arrival_rates a b c w w'
    fixed_time_schedule phase_diagram objective_value :
  get_optimized_fts intersection arrival_rates a b c w
  = (inr (fixed_time_schedule, phase_diagram, objective_value), w') →
  Forall (has_arrival_rates arrival_rates) (signalgroups intersection)
  ∧ ∃ token r output js jp,
      let request :=
        fts_optimization_request intersection arrival_rates (default (PyFloat 0.0) a)
          (default (PyInt 180) b) (default min_delay c) token in
      _authentication_token w = Some token
      ∧ w' = posted w request
      ∧ cloud (posts w) request = inr r
      ∧ status_code r = 200
      ∧ json r = Some output
      ∧ getitem output "obj_value" = inr objective_value
      ∧ getitem output "fixed_time_schedule" = inr js
      ∧ FixedTimeSchedule_from_json js = inr fixed_time_schedule
      ∧ getitem output "phase_diagram" = inr jp
      ∧ PhaseDiagram_from_json jp = inr phase_diagram.
Proof.
  rewrite get_optimized_fts_paths.
  destruct (for_signalgroup_assert _ _) as [e | []] eqn:Hloop; [discriminate |].
  destruct (_authentication_token w) as [token |] eqn:Htoken; [| discriminate].
  cbv zeta. intros [= Hresult <-].
  split; [apply for_signalgroup_assert_inr, Hloop |].
  exists token. unfold after_post in Hresult.
  destruct (cloud _ _) as [[] | r] eqn:Hcloud; try discriminate.
  destruct (decide (status_code r = 200)) as [E200 | Hne];
    [| destruct (check_status_code_raises _ Hne) as [e He]; rewrite He in Hresult;
       discriminate].
  rewrite (check_status_code_returns _ E200) in Hresult. cbn in Hresult.
  unfold parse_fts_output, Response_json in Hresult.
  destruct (json r) as [output |] eqn:Hjson; [| discriminate]. cbn in Hresult.
  destruct (getitem output "obj_value") as [| v] eqn:Hv; [discriminate |]. cbn in Hresult.
  destruct (getitem output "fixed_time_schedule") as [| js] eqn:Hjs; [discriminate |].
  cbn in Hresult.
  destruct (FixedTimeSchedule_from_json js) as [| fts] eqn:Hfts; [discriminate |].
  cbn in Hresult.
  destruct (getitem output "phase_diagram") as [| jp] eqn:Hjp;
    [discriminate |]. cbn in Hresult.
  destruct (PhaseDiagram_from_json jp) as [| pd] eqn:Hpd; [discriminate |].
  cbn in Hresult. injection Hresult as <- <- <-.
  exists r, output, js, jp. repeat split; assumption.
Qed.

(** X9. [get_phase_diagram] returns a phase diagram only along one path: a
    token was stored, the JSON form of the schedule had its two fields, the
    one request was posted, the service answered it with status 200 and a
    JSON object, and the result is decoded from its field [phase_diagram]. *)
Theorem get_phase_diagram_returns_only_if intersection fixed_time_schedule w w'
    phase_diagram :
  get_phase_diagram intersection fixed_time_schedule w = (inr phase_diagram, w') →
  ∃ token g p r output jp,
    let request := phase_diagram_request intersection g p token in
    _authentication_token w = Some token
    ∧ getitem (FixedTimeSchedule_to_json fixed_time_schedule) "greenyellow_intervals"
      = inr g
    ∧ getitem (FixedTimeSchedule_to_json fixed_time_schedule) "period" = inr p
    ∧ w' = posted w request
    ∧ cloud (posts w) request = inr r
    ∧ status_code r = 200
    ∧ json r = Some output
    ∧ getitem output "phase_diagram" = inr jp
    ∧ PhaseDiagram_from_json jp = inr phase_diagram.
Proof.
  rewrite get_phase_diagram_paths.
  destruct (_authentication_token w) as [token |] eqn:Htoken; [| discriminate].
  destruct (getitem _ "greenyellow_intervals") as [| g] eqn:Hg; [discriminate |].
  destruct (getitem _ "period") as [| p] eqn:Hp; [discriminate |].
  cbv zeta. intros [= Hresult <-].
  exists token, g, p. unfold after_post in Hresult.
  destruct (cloud _ _) as [[] | r] eqn:Hcloud; try discriminate.
  destruct (decide (status_code r = 200)) as [E200 | Hne];
    [| destruct (check_status_code_raises _ Hne) as [e He]; rewrite He in Hresult;
       discriminate].
  rewrite (check_status_code_returns _ E200) in Hresult. cbn in Hresult.
  unfold parse_phase_diagram_output, Response_json in Hresult.
  destruct (json r) as [output |] eqn:Hjson; [| discriminate]. cbn in Hresult.
  destruct (getitem output "phase_diagram") as [| jp] eqn:Hjp;
    [discriminate |]. cbn in Hresult.
  exists r, output, jp. repeat split; assumption.
Qed.

(** X10. The exception of [check_status_code] tells the status code:
    [BadRequestException] means 400, [TimeoutError] 504,
    [UnauthorizedException] one of 401, 402, 403 and 426, the bare
    [UnkownCloudException] a code outside the table; the errors of decoding
    come from 400 or 426 ([JSONDecodeError]) and from 426 ([KeyError] of
    [msg], [TypeError]); no other exception is raised. *)
Theorem check_status_code_exception_tells_code response e :
  check_status_code response = inl e →
  match e with
  | BadRequestException _ => status_code response = 400
  | UnauthorizedException _ => status_code response ∈ [401; 402; 403; 426]
  | TimeoutError => status_code response = 504
  | UnkownCloudException msg =>
      msg = None ∧ status_code response ∉ [200; 400; 401; 402; 403; 426; 504]
  | JSONDecodeError => status_code response ∈ [400; 426]
  | KeyError key => key = "msg" ∧ status_code response = 426
  | TypeError => status_code response = 426
  | _ => False
  end.
Proof.
  unfold check_status_code. rewrite !in_one_code.
  case_bool_decide as H400.
  { unfold Response_json. destruct (json response); cbn; intros [= <-].
    - exact H400.
    - rewrite H400. apply list_elem_of_here. }
  case_bool_decide as H401.
  { intros [= <-]. rewrite H401. apply list_elem_of_here. }
  case_bool_decide as H402.
  { intros [= <-]. rewrite H402. apply list_elem_of_further, list_elem_of_here. }
  case_bool_decide as H403.
  { intros [= <-]. rewrite H403. do 2 apply list_elem_of_further. apply list_elem_of_here. }
  case_bool_decide as H426.
  { unfold Response_json. destruct (json response) as [body |]; cbn.
    - destruct (getitem body "msg") as [e' | msg] eqn:Hmsg; cbn; intros [= <-].
      + destruct (getitem_raises _ _ _ Hmsg) as [-> | ->]; [split; [reflexivity |] |];
          exact H426.
      + rewrite H426. do 3 apply list_elem_of_further. apply list_elem_of_here.
    - intros [= <-]. rewrite H426. apply list_elem_of_further, list_elem_of_here. }
  case_bool_decide as H504.
  { intros [= <-]. exact H504. }
  case_bool_decide as H200; [| discriminate].
  intros [= <-]. split; [reflexivity |].
  intros Hin. apply list_elem_of_In in Hin. cbn in Hin.
  repeat (destruct Hin as [Hin | Hin]; [congruence |]). exact Hin.
Qed.

(** X11. A 200 answer that cannot be parsed ends [get_optimized_fts] with
    the first error in the order of the code, after the post: a body that is
    not JSON raises [JSONDecodeError]; then [obj_value] is looked up, then
    [fixed_time_schedule] is looked up and decoded, then [phase_diagram], and
    the error of the first step that fails is raised whatever the later
    fields hold. *)
Theorem get_optimized_fts_incomplete_answer intersection arrival_rates a b c w token r :
  Forall (has_arrival_rates arrival_rates) (signalgroups intersection) →
  _authentication_token w = Some token →
  let request :=
    fts_optimization_request intersection arrival_rates (default (PyFloat 0.0) a)
      (default (PyInt 180) b) (default min_delay c) token in
  cloud (posts w) request = inr r →
  status_code r = 200 →
  (json r = None →
   get_optimized_fts intersection arrival_rates a b c w
   = (inl JSONDecodeError, posted w request))
  ∧ (∀ output e,
       json r = Some output →
       getitem output "obj_value" = inl e →
       get_optimized_fts intersection arrival_rates a b c w = (inl e, posted w request))
  ∧ (∀ output v e,
       json r = Some output →
       getitem output "obj_value" = inr v →
       getitem output "fixed_time_schedule" ≫= FixedTimeSchedule_from_json = inl e →
       get_optimized_fts intersection arrival_rates a b c w = (inl e, posted w request))
  ∧ (∀ output v fts e,
       json r = Some output →
       getitem output "obj_value" = inr v →
       getitem output "fixed_time_schedule" ≫= FixedTimeSchedule_from_json = inr fts →
       getitem output "phase_diagram" ≫= PhaseDiagram_from_json = inl e →
       get_optimized_fts intersection arrival_rates a b c w = (inl e, posted w request)).
Proof.
  intros Hvalid Htoken request Hcloud E200.
  rewrite (get_optimized_fts_run _ _ a b c _ _ Hvalid Htoken). cbv zeta.
  fold request. rewrite Hcloud, (check_status_code_returns _ E200).
  unfold Response_json, mbind, result_bind.
  split; [| split; [| split]].
  - intros ->. reflexivity.
  - intros output e -> Hv. rewrite Hv. reflexivity.
  - intros output v e -> Hv Hfts. rewrite Hv, Hfts. reflexivity.
  - intros output v fts e -> Hv Hfts Hpd. rewrite Hv, Hfts, Hpd. reflexivity.
Qed.

(** X12. What [get_phase_diagram] makes of an answer that is no phase
    diagram, after the post: with a status other than 200 it raises what
    [check_status_code] raises; with status 200 and a body that is not JSON
    it raises [JSONDecodeError], and with a JSON body whose field
    [phase_diagram] cannot be looked up or decoded it raises that error. *)
Theorem get_phase_diagram_refused intersection fixed_time_schedule w token g p r :
  _authentication_token w = Some token →
  getitem (FixedTimeSchedule_to_json fixed_time_schedule) "greenyellow_intervals" = inr g →
  getitem (FixedTimeSchedule_to_json fixed_time_schedule) "period" = inr p →
  let request := phase_diagram_request intersection g p token in
  cloud (posts w) request = inr r →
  (status_code r ≠ 200 →
   ∃ e, check_status_code r = inl e
        ∧ get_phase_diagram intersection fixed_time_schedule w = (inl e, posted w request))
  ∧ (status_code r = 200 → json r = None →
     get_phase_diagram intersection fixed_time_schedule w
     = (inl JSONDecodeError, posted w request))
  ∧ (status_code r = 200 → ∀ output e,
     json r = Some output →
     getitem output "phase_diagram" ≫= PhaseDiagram_from_json = inl e →
     get_phase_diagram intersection fixed_time_schedule w = (inl e, posted w request)).
Proof.
  intros Htoken Hg Hp request Hcloud.
  rewrite (get_phase_diagram_run _ _ _ _ _ _ Htoken Hg Hp). cbv zeta.
  fold request. rewrite Hcloud. split; [| split].
  - intros Hne. destruct (check_status_code_raises _ Hne) as [e He].
    exists e. rewrite He. split; reflexivity.
  - intros E200 Hjson. rewrite (check_status_code_returns _ E200).
    unfold Response_json. rewrite Hjson. reflexivity.
  - intros E200 output e Hjson Hpd. rewrite (check_status_code_returns _ E200).
    unfold Response_json, mbind, result_bind in *. rewrite Hjson, Hpd. reflexivity.
Qed.

(** X13. The two operations in a row. After [get_optimized_fts] has
    returned a schedule, the token is still stored, and [get_phase_diagram]
    on that schedule, in the world the first call left, posts its request
    with the same token: the two posts follow the earlier ones in the order
    of the calls. *)
Theorem get_phase_diagram_after_get_optimized_fts intersection arrival_rates a b c w w'
    fixed_time_schedule phase_diagram objective_value g p :
  get_optimized_fts intersection arrival_rates a b c w
  = (inr (fixed_time_schedule, phase_diagram, objective_value), w') →
  getitem (FixedTimeSchedule_to_json fixed_time_schedule) "greenyellow_intervals" = inr g →
  getitem (FixedTimeSchedule_to_json fixed_time_schedule) "period" = inr p →
  ∃ token,
    _authentication_token w = Some token
    ∧ _authentication_token w' = Some token
    ∧ posts (get_phase_diagram intersection fixed_time_schedule w').2
      = posts w
        ++ [fts_optimization_request intersection arrival_rates (default (PyFloat 0.0) a)
              (default (PyInt 180) b) (default min_delay c) token;
            phase_diagram_request intersection g p token].
Proof.
  intros Hfirst Hg Hp. rewrite get_optimized_fts_paths in Hfirst.
  destruct (for_signalgroup_assert _ _) as [e | []]; [discriminate |].
  destruct (_authentication_token w) as [token |] eqn:Htoken; [| discriminate].
  cbv zeta in Hfirst. injection Hfirst as _ <-.
  exists token. split; [reflexivity |]. split; [exact Htoken |].
  match goal with
  | |- context [get_phase_diagram _ _ ?world] =>
      rewrite (get_phase_diagram_run intersection fixed_time_schedule world token g p
                 Htoken Hg Hp)
  end.
  cbn. rewrite <- app_assoc. reflexivity.
Qed.

End Edges.

(** ** The further properties on the example deployment *)

Lemma for_signalgroup_assert_first_offender_witness :
  @for_signalgroup_assert (example unreachable) example_intersection
    example_rates_without_B
  = inl (AssertionError "arrival rate(s) must be specified for signalgroup B")
  ∧ @for_signalgroup_assert (example unreachable) example_intersection
      example_rates_short_B
    = inl (AssertionError
             "arrival rate(s) must be specified for all traffic lights of signalgroup B").
Proof.
  split.
  - destruct (@for_signalgroup_assert_first_offender (example unreachable)
                [ {| id := "A"; traffic_lights := [()] |} ]
                {| id := "B"; traffic_lights := [(); ()] |} [] example_rates_without_B)
      as [Habsent _].
    + example_rates_valid.
    + apply Habsent. reflexivity.
  - destruct (@for_signalgroup_assert_first_offender (example unreachable)
                [ {| id := "A"; traffic_lights := [()] |} ]
                {| id := "B"; traffic_lights := [(); ()] |} [] example_rates_short_B)
      as [_ Hlength].
    + example_rates_valid.
    + apply (Hlength [PyInt 150]); [reflexivity | discriminate].
Defined.

Lemma for_signalgroup_assert_surplus_witness :
  @for_signalgroup_assert (example unreachable) example_intersection example_rates_with_C
  = inr ().
Proof.
  apply (@for_signalgroup_assert_surplus (example unreachable) example_intersection
           example_arrival_rates example_rates_with_C).
  - apply insert_subseteq. reflexivity.
  - reflexivity.
Defined.

Lemma operations_without_token_witness :
  @get_optimized_fts (example (answers ok_response)) example_intersection
    example_arrival_rates None None None without_token
  = (inl TypeError, without_token)
  ∧ @get_phase_diagram (example (answers ok_response)) example_intersection
      example_schedule without_token
    = (inl TypeError, without_token).
Proof.
  destruct (@operations_without_token (example (answers ok_response)) without_token
              eq_refl) as [Hfts Hpd].
  split.
  - apply Hfts. example_rates_valid.
  - apply Hpd.
Defined.

Lemma get_phase_diagram_schedule_without_field_witness :
  @get_phase_diagram (example_loose (answers ok_response)) example_intersection
    (JDict [("period", JNum (PyInt 60))]) with_token
  = (inl (KeyError "greenyellow_intervals"), with_token)
  ∧ @get_phase_diagram (example_loose (answers ok_response)) example_intersection
      (JDict [("greenyellow_intervals", JDict [])]) with_token
    = (inl (KeyError "period"), with_token).
Proof.
  split.
  - destruct (@get_phase_diagram_schedule_without_field
                (example_loose (answers ok_response)) example_intersection
                (JDict [("period", JNum (PyInt 60))]) with_token "token" eq_refl)
      as [Hfirst _].
    apply (Hfirst (KeyError "greenyellow_intervals") eq_refl).
  - destruct (@get_phase_diagram_schedule_without_field
                (example_loose (answers ok_response)) example_intersection
                (JDict [("greenyellow_intervals", JDict [])]) with_token "token" eq_refl)
      as [_ Hsecond].
    apply (Hsecond (JDict []) (KeyError "period") eq_refl eq_refl).
Defined.


Lemma get_optimized_fts_returns_only_if_witness :
  Forall (@has_arrival_rates (example (answers ok_response)) example_arrival_rates)
    example_intersection.
Proof.
  apply (@get_optimized_fts_returns_only_if (example (answers ok_response))
           example_intersection example_arrival_rates None None None with_token
           (posted with_token
              (@fts_optimization_request (example (answers ok_response))
                 example_intersection example_arrival_rates (PyFloat 0.0) (PyInt 180)
                 min_delay "token"))
           example_schedule example_phase_diagram (JNum (PyFloat 12.5))).
  reflexivity.
Defined.

Lemma get_phase_diagram_returns_only_if_witness :
  ∃ token g p r output jp,
    _authentication_token with_token = Some token
    ∧ getitem (example_schedule_to_json example_schedule) "greenyellow_intervals" = inr g
    ∧ getitem (example_schedule_to_json example_schedule) "period" = inr p
    ∧ answers ok_response [] (@phase_diagram_request (example (answers ok_response))
                                example_intersection g p token) = inr r
    ∧ status_code r = 200
    ∧ json r = Some output
    ∧ getitem output "phase_diagram" = inr jp
    ∧ jp = example_phase_diagram.
Proof.
  destruct (@get_phase_diagram_returns_only_if (example (answers ok_response))
              example_intersection example_schedule with_token
              (posted with_token
                 (@phase_diagram_request (example (answers ok_response))
                    example_intersection (greenyellow_intervals example_schedule)
                    (period example_schedule) "token"))
              example_phase_diagram eq_refl)
    as (token & g & p & r & output & jp & Ht & Hg & Hp & _ & Hc & Hs & Hj & Hpd & Hd).
  exists token, g, p, r, output, jp.
  repeat split; try assumption. injection Hd as ->. reflexivity.
Defined.

Lemma check_status_code_exception_tells_code_witness :
  status_code payment_required ∈ [401; 402; 403; 426].
Proof.
  apply (@check_status_code_exception_tells_code (example unreachable) payment_required
           (UnauthorizedException "Insufficient credits (cpu seconds) left.")).
  reflexivity.
Defined.

Lemma get_optimized_fts_incomplete_answer_witness :
  (@get_optimized_fts (example (answers output_without_obj_value)) example_intersection
     example_arrival_rates None None None with_token).1
  = inl (KeyError "obj_value").
Proof.
  assert (Hvalid : Forall (@has_arrival_rates (example (answers output_without_obj_value))
                             example_arrival_rates) example_intersection)
    by example_rates_valid.
  destruct (@get_optimized_fts_incomplete_answer (example (answers output_without_obj_value))
              example_intersection example_arrival_rates None None None with_token "token"
              output_without_obj_value Hvalid eq_refl eq_refl eq_refl)
    as (_ & Hobj & _).
  rewrite (Hobj _ (KeyError "obj_value") eq_refl eq_refl). reflexivity.
Defined.

Lemma get_phase_diagram_refused_witness :
  ∃ e,
    @check_status_code (example (answers payment_required)) payment_required = inl e
    ∧ (@get_phase_diagram (example (answers payment_required)) example_intersection
         example_schedule with_token).1
      = inl e.
Proof.
  destruct (@get_phase_diagram_refused (example (answers payment_required))
              example_intersection example_schedule with_token "token"
              (greenyellow_intervals example_schedule) (period example_schedule)
              payment_required)
    as [Hrefused _]; try reflexivity.
  destruct Hrefused as (e & He & Hrun); [discriminate |].
  exists e. split; [exact He |]. rewrite Hrun. reflexivity.
Defined.

Lemma get_phase_diagram_after_get_optimized_fts_witness :
  ∃ token,
    _authentication_token with_token = Some token
    ∧ length
        (posts (@get_phase_diagram (example (answers ok_response)) example_intersection
                  example_schedule
                  (@get_optimized_fts (example (answers ok_response)) example_intersection
                     example_arrival_rates None None None with_token).2).2)
      = 2%nat.
Proof.
  destruct (@get_phase_diagram_after_get_optimized_fts (example (answers ok_response))
              example_intersection example_arrival_rates None None None with_token
              (@get_optimized_fts (example (answers ok_response)) example_intersection
                 example_arrival_rates None None None with_token).2
              example_schedule example_phase_diagram (JNum (PyFloat 12.5))
              (greenyellow_intervals example_schedule) (period example_schedule))
    as (token & Ht & _ & Hposts); try reflexivity.
  exists token. split; [exact Ht |]. rewrite Hposts. reflexivity.
Defined.
